(** * glumpy.app.window.window : the platform independent [Window]

    A shallow embedding of [glumpy/app/window/window.py].  Python objects
    are references into a store of [Window] records; methods are state
    transformers over a [world] (store, logger output, issued GL calls and
    [sys.argv]) that either return a value or raise an exception. *)

From Stdlib Require Import PrimFloat Ascii.
From stdpp Require Import gmap strings list.

Open Scope string_scope.
Open Scope Z_scope.

(** ** Python values *)

Definition loc := nat.

#[warnings="-register-all"]
Inductive value : Type :=
| VNone
| VBool (b : bool)
| VInt (n : Z)
| VFloat (x : float)
| VStr (s : string)
| VTuple (items : list value)
| VFunc (fid : nat)
    (* a user function, told apart by its identity *)
| VObj (oid : nat) (fields : list (string * value))
    (* a plain object: identity and instance attributes *)
| VRef (self : loc)
    (* a reference to a Window *)
| VDecorator (self : loc) (delay : value).
    (* the closure [decorator] built by [Window.timer]: it captures
       [self] (by reference) and [delay] *)

(** Python truth value testing, as used by [if x:] and [x or y]. *)
Definition truthy (v : value) : bool :=
  match v with
  | VNone => false
  | VBool b => b
  | VInt n => negb (n =? 0)
  | VFloat x => negb (PrimFloat.eqb x 0%float)
  | VStr s => negb (String.eqb s "")
  | VTuple items => negb (Nat.eqb (length items) 0)
  | VFunc _ | VObj _ _ | VRef _ | VDecorator _ _ => true
  end.

(** ** Exceptions and results *)

Inductive exn : Type :=
| AttributeError
| IndexError
| TypeError
| OtherError (msg : string)
    (* whatever else the base class may raise *)
| NoSuchObject.
    (* model only: a reference that denotes no live object *)

Inductive result (A : Type) : Type :=
| Ok (a : A)
| Raise (e : exn).
Arguments Ok {A} a.
Arguments Raise {A} e.

(** [obj.name] on a value.  Only the private attributes read by this
    file are ever looked up ([_depth_size], [_stencil_size]); of the
    values above only plain objects carry such attributes. *)
Fixpoint assoc (name : string) (fields : list (string * value)) : option value :=
  match fields with
  | [] => None
  | (k, v) :: rest => if String.eqb k name then Some v else assoc name rest
  end.

Definition getattr (v : value) (name : string) : result value :=
  match v with
  | VObj _ fields =>
      match assoc name fields with
      | Some a => Ok a
      | None => Raise AttributeError
      end
  | _ => Raise AttributeError
  end.

(** ** The collaborators of the module *)

(** [gl.GL_COLOR_BUFFER_BIT], [gl.GL_DEPTH_BUFFER_BIT] and
    [gl.GL_STENCIL_BUFFER_BIT]: the OpenGL enumerants re-exported by
    [glumpy.gl]. *)
Definition GL_DEPTH_BUFFER_BIT : Z := 0x100.
Definition GL_STENCIL_BUFFER_BIT : Z := 0x400.
Definition GL_COLOR_BUFFER_BIT : Z := 0x4000.

(** Calls issued to the GL binding, in order. *)
Inductive gl_call : Type :=
| glClearColor (args : list value)
| glClear (mask : Z).

(** Records emitted through [glumpy.log.log]. *)
Inductive log_record : Type :=
| Warning (msg : string).

(** A backend: the object stored in [_backend] by a concrete window,
    whose [name()] returns the backend's name. *)
Record Backend : Type := { name : string }.

(** ** Windows *)

Record Window : Type := {
  _mouse_x : value;
  _mouse_y : value;
  _button : value;
  _x : value;
  _y : value;
  _width : value;
  _height : value;
  _title : value;
  _visible : value;
  _fullscreen : value;
  _decoration : value;
  _clock : value;
  _timer_stack : list (value * value);
  _timer_date : list value;
  _backend : option Backend;     (* [None] is Python's [None] *)
  color : value;
  _clearflags : Z;
  viewport : gmap string value   (* attributes set by [Viewport.__init__] *)
}.

Record world : Type := {
  store : gmap loc Window;
  log : list log_record;
  gl : list gl_call;
  argv : list string             (* [sys.argv] *)
}.

(** Methods: state transformers that return or raise. *)
Definition M (A : Type) : Type := world -> result A * world.

Definition ret {A} (a : A) : M A := fun s => (Ok a, s).
Definition raise {A} (e : exn) : M A := fun s => (Raise e, s).
Definition bind {A B} (m : M A) (k : A -> M B) : M B :=
  fun s =>
    match m s with
    | (Ok a, s') => k a s'
    | (Raise e, s') => (Raise e, s')
    end.
Definition lift {A} (r : result A) : M A := fun s => (r, s).

Notation "x <- m ;; k" := (bind m (fun x => k))
  (at level 100, m at next level, right associativity).
Notation "m ;;; k" := (bind m (fun _ => k))
  (at level 100, right associativity).

(** Arguments of [Window.__init__]. *)
Record init_args : Type := {
  arg_width : value;
  arg_height : value;
  arg_title : value;
  arg_visible : value;
  arg_aspect : value;
  arg_decoration : value;
  arg_fullscreen : value;
  arg_config : value;
  arg_context : value;
  arg_color : value
}.

(** The defaults of the signature of [__init__]. *)
Definition default_args : init_args := {|
  arg_width := VInt 256;
  arg_height := VInt 256;
  arg_title := VNone;
  arg_visible := VBool true;
  arg_aspect := VNone;
  arg_decoration := VBool true;
  arg_fullscreen := VBool false;
  arg_config := VNone;
  arg_context := VNone;
  arg_color := VTuple [VInt 0; VInt 0; VInt 0; VInt 1]
|}.

(** [sys.argv[0]] *)
Definition sys_argv_0 : M value :=
  fun s =>
    match argv s with
    | [] => (Raise IndexError, s)
    | a :: _ => (Ok (VStr a), s)
    end.

(** [a or b]: [b] is evaluated only when [a] is falsy. *)
Definition py_or (a : value) (b : M value) : M value :=
  if truthy a then ret a else b.

(** *** State access *)

Definition set_store (st : gmap loc Window) (s : world) : world :=
  {| store := st; log := log s; gl := gl s; argv := argv s |}.
Definition set_log (lg : list log_record) (s : world) : world :=
  {| store := store s; log := lg; gl := gl s; argv := argv s |}.
Definition set_gl (g : list gl_call) (s : world) : world :=
  {| store := store s; log := log s; gl := g; argv := argv s |}.

(** Reading [self]. *)
Definition deref (self : loc) : M Window :=
  fun s =>
    match store s !! self with
    | Some w => (Ok w, s)
    | None => (Raise NoSuchObject, s)
    end.

(** Mutating [self] in place. *)
Definition modify (self : loc) (f : Window -> Window) : M unit :=
  w <- deref self ;;
  fun s => (Ok tt, set_store (<[self := f w]> (store s)) s).

Definition timer_stack_append (entry : value * value) (w : Window) : Window :=
  {| _mouse_x := _mouse_x w; _mouse_y := _mouse_y w; _button := _button w;
     _x := _x w; _y := _y w; _width := _width w; _height := _height w;
     _title := _title w; _visible := _visible w; _fullscreen := _fullscreen w;
     _decoration := _decoration w; _clock := _clock w;
     _timer_stack := _timer_stack w ++ [entry];
     _timer_date := _timer_date w;
     _backend := _backend w; color := color w; _clearflags := _clearflags w;
     viewport := viewport w |}.

Definition timer_date_append (date : value) (w : Window) : Window :=
  {| _mouse_x := _mouse_x w; _mouse_y := _mouse_y w; _button := _button w;
     _x := _x w; _y := _y w; _width := _width w; _height := _height w;
     _title := _title w; _visible := _visible w; _fullscreen := _fullscreen w;
     _decoration := _decoration w; _clock := _clock w;
     _timer_stack := _timer_stack w;
     _timer_date := _timer_date w ++ [date];
     _backend := _backend w; color := color w; _clearflags := _clearflags w;
     viewport := viewport w |}.

(** What a concrete window does after the base initialiser:
    [self._backend = backend]. *)
Definition set_backend (b : option Backend) (w : Window) : Window :=
  {| _mouse_x := _mouse_x w; _mouse_y := _mouse_y w; _button := _button w;
     _x := _x w; _y := _y w; _width := _width w; _height := _height w;
     _title := _title w; _visible := _visible w; _fullscreen := _fullscreen w;
     _decoration := _decoration w; _clock := _clock w;
     _timer_stack := _timer_stack w;
     _timer_date := _timer_date w;
     _backend := b; color := color w; _clearflags := _clearflags w;
     viewport := viewport w |}.

(** *** The logger and the GL binding *)

(** [log.warn(msg)] *)
Definition log_warn (msg : string) : M value :=
  fun s => (Ok VNone, set_log (log s ++ [Warning msg]) s).

(** [fmt % arg] for a string [arg]: the first [%s] of [fmt] is replaced.
    The formats of this file hold exactly one conversion. *)
Fixpoint percent (fmt arg : string) : result string :=
  match fmt with
  | EmptyString => Raise TypeError
  | String c rest =>
      match c, rest with
      | "%"%char, String "s"%char rest' => Ok (arg +:+ rest')
      | _, _ =>
          match percent rest arg with
          | Ok r => Ok (String c r)
          | Raise e => Raise e
          end
      end
  end.

(** Star-unpacking of [v] in a call: the positional arguments obtained
    by iterating over [v]. *)
Fixpoint chars (s : string) : list value :=
  match s with
  | EmptyString => []
  | String c rest => VStr (String c EmptyString) :: chars rest
  end.

Definition unpack (v : value) : result (list value) :=
  match v with
  | VTuple items => Ok items
  | VStr s => Ok (chars s)
  | _ => Raise TypeError
  end.

(** [gl.glClearColor(red, green, blue, alpha)]: the binding takes four
    arguments. *)
Definition gl_glClearColor (args : list value) : M value :=
  if Nat.eqb (length args) 4
  then fun s => (Ok VNone, set_gl (gl s ++ [glClearColor args]) s)
  else raise TypeError.

(** [gl.glClear(mask)] *)
Definition gl_glClear (mask : Z) : M value :=
  fun s => (Ok VNone, set_gl (gl s ++ [glClear mask]) s).

(** *** Properties *)

Definition width (self : loc) : M value :=
  w <- deref self ;; ret (_width w).

Definition height (self : loc) : M value :=
  w <- deref self ;; ret (_height w).

(** [return self._config].  No statement of this file assigns
    [_config]: the lookup finds what the base class left on [self], if
    anything. *)
Definition config (self : loc) : M value :=
  w <- deref self ;;
  match viewport w !! "_config" with
  | Some c => ret c
  | None => raise AttributeError
  end.

(** *** Methods *)

Definition clear (self : loc) : M value :=
  w <- deref self ;;
  args <- lift (unpack (color w)) ;;
  gl_glClearColor args ;;;
  w <- deref self ;;
  gl_glClear (_clearflags w).

(** [self._backend.name()] *)
Definition backend_name (self : loc) : M string :=
  w <- deref self ;;
  match _backend w with
  | None => raise AttributeError
  | Some b => ret (name b)
  end.

(** [log.warn(fmt % self._backend.name())], the body shared by the
    operations a backend is expected to override. *)
Definition cannot (fmt : string) (self : loc) : M value :=
  n <- backend_name self ;;
  msg <- lift (percent fmt n) ;;
  log_warn msg.

Definition show (self : loc) : M value :=
  cannot "%s backend cannot show window" self.
Definition hide (self : loc) : M value :=
  cannot "%s backend cannot hide window" self.
Definition close (self : loc) : M value :=
  cannot "%s backend cannot close window" self.
Definition set_title (self : loc) (title : value) : M value :=
  cannot "%s backend cannot set window title" self.
Definition get_title (self : loc) : M value :=
  cannot "%s backend cannot get window title" self.
Definition set_size (self : loc) (width height : value) : M value :=
  cannot "%s backend cannot set window size" self.
Definition get_size (self : loc) : M value :=
  cannot "%s backend cannot get window size" self.
Definition set_position (self : loc) (x y : value) : M value :=
  cannot "%s backend cannot set window position" self.
Definition get_position (self : loc) : M value :=
  cannot "%s backend cannot get position" self.
Definition set_fullscreen (self : loc) (fullsrceen : value) : M value :=
  cannot "%s backend cannot set fullscreen mode" self.
Definition get_fullscreen (self : loc) : M value :=
  cannot "%s backend cannot get fullscreen mode" self.
Definition swap (self : loc) : M value :=
  cannot "%s backend cannot swap buffers" self.
Definition activate (self : loc) : M value :=
  cannot "%s backend cannot make window active" self.

(** The inner function of [timer], closed over [self] and [delay]. *)
Definition decorator (self : loc) (delay : value) (func : value) : M value :=
  modify self (timer_stack_append (func, delay)) ;;;
  modify self (timer_date_append (VInt 0)) ;;;
  ret func.

Definition timer (self : loc) (delay : value) : M value :=
  ret (VDecorator self delay).

(** [callee(arg)].  The only callable whose body belongs to this file is
    the decorator returned by [timer]; user functions are stored by the
    window and never called here. *)
Definition apply (callee arg : value) : M value :=
  match callee with
  | VDecorator self delay => decorator self delay arg
  | _ => raise TypeError
  end.

(** [@window.timer(delay)] in front of [def func]: the decorator
    expression is evaluated, then applied to the function; the result is
    what the name of the function is bound to. *)
Definition decorate (self : loc) (delay func : value) : M value :=
  d <- timer self delay ;;
  apply d func.

(** *** Programs over windows *)

(** The operations a backend is expected to override, with their
    arguments. *)
Inductive stub : Type :=
| Op_show | Op_hide | Op_close
| Op_set_title (title : value) | Op_get_title
| Op_set_size (width height : value) | Op_get_size
| Op_set_position (x y : value) | Op_get_position
| Op_set_fullscreen (fullsrceen : value) | Op_get_fullscreen
| Op_swap | Op_activate.

Definition call_stub (self : loc) (op : stub) : M value :=
  match op with
  | Op_show => show self
  | Op_hide => hide self
  | Op_close => close self
  | Op_set_title t => set_title self t
  | Op_get_title => get_title self
  | Op_set_size w h => set_size self w h
  | Op_get_size => get_size self
  | Op_set_position x y => set_position self x y
  | Op_get_position => get_position self
  | Op_set_fullscreen f => set_fullscreen self f
  | Op_get_fullscreen => get_fullscreen self
  | Op_swap => swap self
  | Op_activate => activate self
  end.

(** What the warning of each operation says after the backend's name. *)
Definition complaint (op : stub) : string :=
  match op with
  | Op_show => " backend cannot show window"
  | Op_hide => " backend cannot hide window"
  | Op_close => " backend cannot close window"
  | Op_set_title _ => " backend cannot set window title"
  | Op_get_title => " backend cannot get window title"
  | Op_set_size _ _ => " backend cannot set window size"
  | Op_get_size => " backend cannot get window size"
  | Op_set_position _ _ => " backend cannot set window position"
  | Op_get_position => " backend cannot get position"
  | Op_set_fullscreen _ => " backend cannot set fullscreen mode"
  | Op_get_fullscreen => " backend cannot get fullscreen mode"
  | Op_swap => " backend cannot swap buffers"
  | Op_activate => " backend cannot make window active"
  end.

(** One call made by the application on existing windows. *)
Inductive call : Type :=
| Call_stub (self : loc) (op : stub)
| Call_clear (self : loc)
| Call_width (self : loc)
| Call_height (self : loc)
| Call_config (self : loc)
| Call_timer (self : loc) (delay : value)
| Call_apply (callee arg : value).

Definition exec (c : call) : M value :=
  match c with
  | Call_stub self op => call_stub self op
  | Call_clear self => clear self
  | Call_width self => width self
  | Call_height self => height self
  | Call_config self => config self
  | Call_timer self delay => timer self delay
  | Call_apply callee arg => apply callee arg
  end.

(** The world after a sequence of calls, each one made whether the
    previous returned or raised (an exception leaves the world as it was
    when raised). *)
Fixpoint run (cs : list call) (s : world) : world :=
  match cs with
  | [] => s
  | c :: rest => run rest (snd (exec c s))
  end.

(** The registrations made on [self] by a sequence of calls: the
    applications of a decorator of [self], in the order of the calls. *)
Fixpoint registrations (self : loc) (cs : list call) : list (value * value) :=
  match cs with
  | [] => []
  | Call_apply (VDecorator l delay) func :: rest =>
      if Nat.eqb l self
      then (func, delay) :: registrations self rest
      else registrations self rest
  | _ :: rest => registrations self rest
  end.

Section Window.

(** [Viewport.__init__(self, size, aspect)] and [mouse.NONE] belong to
    modules that are not part of this file; they are parameters.  Of the
    base initialiser only what it leaves on [self] is used: the
    attributes it sets, or the exception it raises. *)
Variable Viewport_init : value -> value -> result (gmap string value).
Variable mouse_NONE : value.

(** [Window.__init__] *)
Definition Window_init (a : init_args) : M Window :=
  vp <- lift (Viewport_init (VTuple [arg_width a; arg_height a]) (arg_aspect a)) ;;
  title <- py_or (arg_title a) sys_argv_0 ;;
  let clearflags := GL_COLOR_BUFFER_BIT in
  depth <- lift (getattr (arg_config a) "_depth_size") ;;
  let clearflags :=
    if truthy depth then Z.lor clearflags GL_DEPTH_BUFFER_BIT else clearflags in
  stencil <- lift (getattr (arg_config a) "_stencil_size") ;;
  let clearflags :=
    if truthy stencil then Z.lor clearflags GL_STENCIL_BUFFER_BIT else clearflags in
  ret {| _mouse_x := VInt 0;
         _mouse_y := VInt 0;
         _button := mouse_NONE;
         _x := VInt 0;
         _y := VInt 0;
         _width := arg_width a;
         _height := arg_height a;
         _title := title;
         _visible := arg_visible a;
         _fullscreen := arg_fullscreen a;
         _decoration := arg_decoration a;
         _clock := VNone;
         _timer_stack := [];
         _timer_date := [];
         _backend := None;
         color := arg_color a;
         _clearflags := clearflags;
         viewport := vp |}.

(** [Window(...)]: a new object is initialised and, unless [__init__]
    raises, becomes reachable through a fresh reference. *)
Definition Window_new (a : init_args) : M loc :=
  w <- Window_init a ;;
  fun s =>
    let l := fresh (dom (store s)) in
    (Ok l, set_store (<[l := w]> (store s)) s).

End Window.

(** ** The frame rate *)

Section Clock.

(** The clock is an object that the application attaches to the window
    after construction; [get_fps] stands for its method of that name. *)
Variable get_fps : value -> M value.

(** [return self._clock.get_fps()]: on [None] the attribute lookup
    fails before anything is called. *)
Definition fps (self : loc) : M value :=
  w <- deref self ;;
  match _clock w with
  | VNone => raise AttributeError
  | clock => get_fps clock
  end.

End Clock.

(** Two states of a window that differ at most in the two timer
    registries. *)
Definition same_but_registries (w w' : Window) : Prop :=
  _mouse_x w' = _mouse_x w /\ _mouse_y w' = _mouse_y w /\
  _button w' = _button w /\
  _x w' = _x w /\ _y w' = _y w /\
  _width w' = _width w /\ _height w' = _height w /\
  _title w' = _title w /\ _visible w' = _visible w /\
  _fullscreen w' = _fullscreen w /\ _decoration w' = _decoration w /\
  _clock w' = _clock w /\ _backend w' = _backend w /\
  color w' = color w /\ _clearflags w' = _clearflags w /\
  viewport w' = viewport w.

(** ** Instances used to run the model *)

(** Modelled from the spec: [Viewport.__init__] lives in
    glumpy/app/window/viewport.py, which is not in src.  It is to
    "initialize viewport/aspect state via the base Viewport component
    using (width, height) and aspect": the size and the aspect are kept
    on [self], and nothing else is known to it. *)
Definition Viewport_init_spec (size aspect : value) : result (gmap string value) :=
  Ok (<["_size" := size]> (<["_aspect" := aspect]> ∅)).

(** Modelled from the spec: [mouse.NONE] lives in
    glumpy/app/window/mouse.py, which is not in src; "button defaults to
    none".  Any constant does. *)
Definition mouse_NONE_spec : value := VInt 0.

(** Configurations, as objects carrying the two attributes read by
    [__init__]. *)
Definition Configuration (oid : nat) (depth_size stencil_size : value) : value :=
  VObj oid [("_depth_size", depth_size); ("_stencil_size", stencil_size)].

(** A script started as [python demo.py], and the interactive
    interpreter, where [sys.argv] is [['']]. *)
Definition script_world : world :=
  {| store := ∅; log := []; gl := []; argv := ["demo.py"] |}.
Definition interactive_world : world :=
  {| store := ∅; log := []; gl := []; argv := [""] |}.

Definition with_config (c : value) (a : init_args) : init_args :=
  {| arg_width := arg_width a; arg_height := arg_height a;
     arg_title := arg_title a; arg_visible := arg_visible a;
     arg_aspect := arg_aspect a; arg_decoration := arg_decoration a;
     arg_fullscreen := arg_fullscreen a; arg_config := c;
     arg_context := arg_context a; arg_color := arg_color a |}.

(** The arguments of [Window(config=Configuration(...))] with a 24-bit
    depth buffer and an 8-bit stencil buffer, the window that results
    under the instances above, and the world holding it. *)
Definition demo_config : value := Configuration 1 (VInt 24) (VInt 8).
Definition demo_args : init_args := with_config demo_config default_args.

Definition demo_window (title : string) : Window :=
  {| _mouse_x := VInt 0; _mouse_y := VInt 0; _button := mouse_NONE_spec;
     _x := VInt 0; _y := VInt 0;
     _width := VInt 256; _height := VInt 256; _title := VStr title;
     _visible := VBool true; _fullscreen := VBool false;
     _decoration := VBool true; _clock := VNone;
     _timer_stack := []; _timer_date := []; _backend := None;
     color := VTuple [VInt 0; VInt 0; VInt 0; VInt 1];
     _clearflags := 0x4500;
     viewport :=
       <["_size" := VTuple [VInt 256; VInt 256]]> (<["_aspect" := VNone]> ∅) |}.

Definition demo_world : world :=
  set_store (<[0%nat := demo_window "demo.py"]> ∅) script_world.

(** The same window once a backend named GLFW has been attached. *)
Definition glfw : Backend := {| name := "GLFW" |}.
Definition glfw_world : world :=
  set_store (<[0%nat := set_backend (Some glfw) (demo_window "demo.py")]> ∅)
    script_world.

(** Two decorators made first and applied in the other order, with a
    failing operation in between. *)
Definition demo_calls : list call :=
  [ Call_timer 0%nat (VInt 1);
    Call_timer 0%nat (VInt 2);
    Call_apply (VDecorator 0%nat (VInt 2)) (VFunc 20);
    Call_stub 0%nat Op_show;
    Call_apply (VDecorator 0%nat (VInt 1)) (VFunc 10) ].

(** A program embedded without arguments: [sys.argv] is empty. *)
Definition embedded_world : world :=
  {| store := ∅; log := []; gl := []; argv := [] |}.

(** A clock that reports sixty frames per second. *)
Definition sixty_fps (clock : value) : M value := ret (VInt 60).

(** A second window, titled by the caller, in the world of the first. *)
Definition titled_args : init_args :=
  {| arg_width := VInt 640; arg_height := VInt 480;
     arg_title := VStr "Viewer"; arg_visible := VBool true;
     arg_aspect := VNone; arg_decoration := VBool true;
     arg_fullscreen := VBool false;
     arg_config := Configuration 2 (VInt 0) (VInt 0);
     arg_context := VRef 0%nat;
     arg_color := VTuple [VInt 1; VInt 1; VInt 1; VInt 1] |}.

Definition two_window_world : world :=
  snd (Window_new Viewport_init_spec mouse_NONE_spec titled_args demo_world).

(** A window that already holds one timer. *)
Definition ticking_window : Window :=
  timer_date_append (VInt 0)
    (timer_stack_append (VFunc 7, VInt 1) (demo_window "demo.py")).
Definition ticking_world : world :=
  set_store (<[0%nat := ticking_window]> ∅) script_world.

(** Calls on two windows: a registration on each, with a resize and a
    clear in between. *)
Definition two_window_calls : list call :=
  [ Call_apply (VDecorator 1%nat (VInt 5)) (VFunc 50);
    Call_stub 0%nat (Op_set_size (VInt 800) (VInt 600));
    Call_clear 1%nat;
    Call_apply (VDecorator 0%nat (VInt 3)) (VFunc 30) ].

(** * Properties *)

(** ** Construction *)

Section Construction.

Variable Viewport_init : value -> value -> result (gmap string value).
Variable mouse_NONE : value.

#[local] Abbreviation Window_init := (Window_init Viewport_init mouse_NONE).
#[local] Abbreviation Window_new := (Window_new Viewport_init mouse_NONE).

Lemma py_or_state a b s s' :
  py_or a sys_argv_0 s = (b, s') -> s' = s.
Proof.
  unfold py_or, ret, sys_argv_0.
  destruct (truthy a); [congruence|].
  destruct (argv s); congruence.
Qed.

(** A successful [__init__] went through every step, and touched
    nothing but [self]. *)
Lemma Window_init_Ok a s w s' :
  Window_init a s = (Ok w, s') ->
  s' = s /\
  exists vp title depth stencil,
    Viewport_init (VTuple [arg_width a; arg_height a]) (arg_aspect a) = Ok vp /\
    py_or (arg_title a) sys_argv_0 s = (Ok title, s) /\
    getattr (arg_config a) "_depth_size" = Ok depth /\
    getattr (arg_config a) "_stencil_size" = Ok stencil /\
    w = {| _mouse_x := VInt 0; _mouse_y := VInt 0; _button := mouse_NONE;
           _x := VInt 0; _y := VInt 0;
           _width := arg_width a; _height := arg_height a; _title := title;
           _visible := arg_visible a; _fullscreen := arg_fullscreen a;
           _decoration := arg_decoration a; _clock := VNone;
           _timer_stack := []; _timer_date := []; _backend := None;
           color := arg_color a;
           _clearflags :=
             Z.lor
               (Z.lor GL_COLOR_BUFFER_BIT
                  (if truthy depth then GL_DEPTH_BUFFER_BIT else 0))
               (if truthy stencil then GL_STENCIL_BUFFER_BIT else 0);
           viewport := vp |}.
Proof.
  unfold Window_init, bind, lift, ret.
  destruct (Viewport_init _ _) as [vp|e]; [|discriminate].
  destruct (py_or (arg_title a) sys_argv_0 s) as [[title|e] s1] eqn:Ht; [|discriminate].
  assert (s1 = s) as -> by (eapply py_or_state; eauto).
  destruct (getattr (arg_config a) "_depth_size") as [depth|e]; [|discriminate].
  destruct (getattr (arg_config a) "_stencil_size") as [stencil|e]; [|discriminate].
  intros [= <- <-]. split; [reflexivity|].
  exists vp, title, depth, stencil.
  repeat split.
  destruct (truthy depth), (truthy stencil); reflexivity.
Qed.

(** A failing [__init__] leaves the world as it found it. *)
Lemma Window_init_state a s r s' :
  Window_init a s = (r, s') -> s' = s.
Proof.
  unfold Window_init, bind, lift, ret.
  destruct (Viewport_init _ _) as [vp|e]; [|congruence].
  destruct (py_or (arg_title a) sys_argv_0 s) as [[title|e] s1] eqn:Ht;
    apply py_or_state in Ht; subst s1; [|congruence].
  destruct (getattr (arg_config a) "_depth_size") as [depth|e]; [|congruence].
  destruct (getattr (arg_config a) "_stencil_size") as [stencil|e]; congruence.
Qed.

Lemma Window_new_Ok a s l s' :
  Window_new a s = (Ok l, s') ->
  exists w,
    Window_init a s = (Ok w, s) /\
    store s !! l = None /\
    s' = set_store (<[l := w]> (store s)) s /\
    store s' !! l = Some w.
Proof.
  unfold Window_new, bind at 1.
  destruct (Window_init a s) as [[w|e] s1] eqn:Hi; [|discriminate].
  destruct (Window_init_Ok _ _ _ _ Hi) as [-> _].
  intros [= <- <-]. exists w. repeat split.
  - apply (not_elem_of_dom (D := gset nat)), is_fresh.
  - cbn. apply lookup_insert_eq.
Qed.

Lemma Window_new_Raise a s e :
  fst (Window_init a s) = Raise e -> Window_new a s = (Raise e, s).
Proof.
  unfold Window_new, bind at 1.
  destruct (Window_init a s) as [r s1] eqn:Hi.
  pose proof (Window_init_state _ _ _ _ Hi) as ->.
  cbn. intros ->. reflexivity.
Qed.

(** The only exception of an attribute lookup. *)
Lemma getattr_Raise v attr e : getattr v attr = Raise e -> e = AttributeError.
Proof.
  destruct v; cbn; try congruence.
  destruct (assoc attr fields); congruence.
Qed.

(** Truth of an integer size: nonzero. *)
Lemma truthy_VInt n : truthy (VInt n) = true <-> n <> 0.
Proof. cbn. rewrite negb_true_iff, Z.eqb_neq. reflexivity. Qed.

(** C3.  The clear flags of a new window are the colour-buffer bit, with
    the depth-buffer bit set if and only if the depth size of the
    configuration is truthy, and the stencil-buffer bit set if and only
    if its stencil size is truthy; when both sizes are falsy the flags
    are the colour bit alone. *)
Theorem clear_flags_at_construction a s l s' :
  Window_new a s = (Ok l, s') ->
  exists w depth stencil,
    store s' !! l = Some w /\
    getattr (arg_config a) "_depth_size" = Ok depth /\
    getattr (arg_config a) "_stencil_size" = Ok stencil /\
    _clearflags w =
      Z.lor
        (Z.lor GL_COLOR_BUFFER_BIT
           (if truthy depth then GL_DEPTH_BUFFER_BIT else 0))
        (if truthy stencil then GL_STENCIL_BUFFER_BIT else 0) /\
    Z.land (_clearflags w) GL_COLOR_BUFFER_BIT = GL_COLOR_BUFFER_BIT /\
    (Z.land (_clearflags w) GL_DEPTH_BUFFER_BIT = GL_DEPTH_BUFFER_BIT
       <-> truthy depth = true) /\
    (Z.land (_clearflags w) GL_STENCIL_BUFFER_BIT = GL_STENCIL_BUFFER_BIT
       <-> truthy stencil = true) /\
    (truthy depth = false -> truthy stencil = false ->
       _clearflags w = GL_COLOR_BUFFER_BIT).
Proof.
  intros Hn.
  destruct (Window_new_Ok _ _ _ _ Hn) as (w & Hi & _ & _ & Hl).
  destruct (Window_init_Ok _ _ _ _ Hi)
    as (_ & vp & title & depth & stencil & _ & _ & Hd & Hs & ->).
  eexists _, depth, stencil.
  split; [exact Hl|]. split; [exact Hd|]. split; [exact Hs|].
  cbn [_clearflags].
  destruct (truthy depth), (truthy stencil); vm_compute;
    repeat split; congruence.
Qed.

(** C9.  A window cannot be constructed without a configuration that
    carries both sizes: when the [config] argument is [None] (its
    default), or an object without [_depth_size] or without
    [_stencil_size], construction raises and no window comes into
    being; once the base initialiser and the title are through, the
    exception is the [AttributeError] of the missing attribute. *)
Theorem construction_needs_config a s :
  arg_config a = VNone \/
  (exists oid fields,
     arg_config a = VObj oid fields /\
     (assoc "_depth_size" fields = None \/
      assoc "_stencil_size" fields = None)) ->
  exists e,
    Window_new a s = (Raise e, s) /\
    (forall vp title,
       Viewport_init (VTuple [arg_width a; arg_height a]) (arg_aspect a) = Ok vp ->
       py_or (arg_title a) sys_argv_0 s = (Ok title, s) ->
       e = AttributeError).
Proof.
  intros Hc.
  assert (getattr (arg_config a) "_depth_size" = Raise AttributeError \/
          getattr (arg_config a) "_stencil_size" = Raise AttributeError) as Hg.
  { destruct Hc as [-> | (oid & fields & -> & [H|H])]; cbn; rewrite ?H; auto. }
  assert (exists e, fst (Window_init a s) = Raise e /\
            (forall vp title,
               Viewport_init (VTuple [arg_width a; arg_height a]) (arg_aspect a) = Ok vp ->
               py_or (arg_title a) sys_argv_0 s = (Ok title, s) ->
               e = AttributeError)) as (e & He & Hk).
  { unfold Window_init, bind, lift, ret.
    destruct (Viewport_init _ _) as [vp|e].
    2:{ exists e. split; [reflexivity|]. intros; discriminate. }
    destruct (py_or (arg_title a) sys_argv_0 s) as [[title|e] s1] eqn:Ht.
    2:{ exists e. split; [reflexivity|].
        intros ? ? _ H. apply py_or_state in Ht. subst. discriminate. }
    exists AttributeError. split; [|reflexivity].
    destruct (getattr (arg_config a) "_depth_size") as [depth|e] eqn:Hd.
    - destruct Hg as [Hg|Hg]; [discriminate|]. rewrite Hg. reflexivity.
    - apply getattr_Raise in Hd as ->. reflexivity. }
  exists e. split; [|exact Hk].
  apply Window_new_Raise, He.
Qed.

(** C7, as the code has it.  A window constructed with [title=None]
    stores the name of the invoking program, [sys.argv[0]], as its
    title; the stored title is empty exactly when that name is. *)
Theorem default_title a s l s' :
  arg_title a = VNone ->
  Window_new a s = (Ok l, s') ->
  exists w prog,
    store s' !! l = Some w /\
    head (argv s) = Some prog /\
    _title w = VStr prog /\
    (_title w = VStr "" <-> prog = "").
Proof.
  intros Ht Hn.
  destruct (Window_new_Ok _ _ _ _ Hn) as (w & Hi & _ & _ & Hl).
  destruct (Window_init_Ok _ _ _ _ Hi)
    as (_ & vp & title & depth & stencil & _ & Hor & _ & _ & ->).
  rewrite Ht in Hor. unfold py_or, sys_argv_0 in Hor. cbn in Hor.
  destruct (argv s) as [|prog rest] eqn:Ha; [discriminate|].
  injection Hor as <-.
  eexists _, prog. split; [exact Hl|]. cbn.
  repeat split; congruence.
Qed.

(** What [config] returns on a new window is decided by the base
    initialiser, from the size and the aspect alone. *)
Lemma config_after_construction a s l s' :
  Window_new a s = (Ok l, s') ->
  exists vp,
    Viewport_init (VTuple [arg_width a; arg_height a]) (arg_aspect a) = Ok vp /\
    config l s' =
      (match vp !! "_config" with
       | Some c => Ok c
       | None => Raise AttributeError
       end, s').
Proof.
  intros Hn.
  destruct (Window_new_Ok _ _ _ _ Hn) as (w & Hi & _ & _ & Hl).
  destruct (Window_init_Ok _ _ _ _ Hi)
    as (_ & vp & title & depth & stencil & Hv & _ & _ & _ & ->).
  exists vp. split; [exact Hv|].
  unfold config, bind, deref. rewrite Hl. cbn.
  destruct (vp !! "_config"); reflexivity.
Qed.

End Construction.

(** ** Operations left to the backend *)

Lemma percent_s arg rest :
  percent (String "%" (String "s" rest)) arg = Ok (arg +:+ rest).
Proof. reflexivity. Qed.

Lemma cannot_Some rest self w b s :
  store s !! self = Some w ->
  _backend w = Some b ->
  cannot (String "%" (String "s" rest)) self s =
    (Ok VNone, set_log (log s ++ [Warning (name b +:+ rest)]) s).
Proof.
  intros Hl Hb. unfold cannot, backend_name, bind, deref, lift.
  rewrite Hl, Hb. reflexivity.
Qed.

Lemma cannot_None fmt self w s :
  store s !! self = Some w ->
  _backend w = None ->
  cannot fmt self s = (Raise AttributeError, s).
Proof.
  intros Hl Hb. unfold cannot, backend_name, bind, deref.
  rewrite Hl, Hb. reflexivity.
Qed.

(** Whatever happens, such an operation leaves every object as it
    was. *)
Lemma cannot_store fmt self s : store (snd (cannot fmt self s)) = store s.
Proof.
  unfold cannot, backend_name, bind, deref, lift.
  destruct (store s !! self) as [w|]; [|reflexivity].
  destruct (_backend w) as [b|]; [|reflexivity]. cbn.
  destruct (percent fmt (name b)); reflexivity.
Qed.

Lemma call_stub_cannot self op :
  exists rest,
    call_stub self op = cannot (String "%" (String "s" rest)) self /\
    rest = complaint op.
Proof. destruct op; eexists; split; reflexivity. Qed.

(** C5.  On a window whose backend is set, an operation that the
    backend did not override returns normally (with [None]), leaves the
    store, hence every attribute of every window, and the GL calls as
    they were, and adds exactly one record to the log: a warning made of
    the name of the backend followed by what it cannot do. *)
Theorem stub_warns_and_changes_nothing self op w b s :
  store s !! self = Some w ->
  _backend w = Some b ->
  exists s',
    call_stub self op s = (Ok VNone, s') /\
    store s' = store s /\
    gl s' = gl s /\
    argv s' = argv s /\
    log s' = (log s ++ [Warning (name b +:+ complaint op)])%list.
Proof.
  intros Hl Hb.
  destruct (call_stub_cannot self op) as (rest & -> & ->).
  rewrite (cannot_Some _ _ _ _ _ Hl Hb).
  eexists. split; [reflexivity|]. repeat split.
Qed.

(** C6.  On a window that was just constructed, where no backend has
    been set, every such operation raises the [AttributeError] of
    [None.name], and logs nothing. *)
Theorem stub_before_backend Viewport_init mouse_NONE a s l s' op :
  Window_new Viewport_init mouse_NONE a s = (Ok l, s') ->
  call_stub l op s' = (Raise AttributeError, s').
Proof.
  intros Hn.
  destruct (Window_new_Ok _ _ _ _ _ _ Hn) as (w & Hi & _ & _ & Hl).
  destruct (Window_init_Ok _ _ _ _ _ _ Hi) as (_ & vp & t & d & st & _ & _ & _ & _ & Hw).
  destruct (call_stub_cannot l op) as (rest & -> & _).
  apply (cannot_None _ _ _ _ Hl). rewrite Hw. reflexivity.
Qed.

(** ** Clearing *)

Lemma clear_store self s : store (snd (clear self s)) = store s.
Proof.
  unfold clear, bind, deref, lift, gl_glClearColor, gl_glClear, raise.
  destruct (store s !! self) as [w|] eqn:Hl; [|reflexivity].
  destruct (unpack (color w)) as [args|e]; [|reflexivity].
  destruct (length args =? 4)%nat; [|reflexivity].
  cbn. rewrite Hl. reflexivity.
Qed.

(** C8.  On a window whose colour is a tuple of four components,
    [clear()] issues two GL calls and no more: [glClearColor] with the
    four components of the stored colour, then [glClear] with the stored
    clear flags as its mask; it returns [None] and changes no attribute
    of any window, nor the log. *)
Theorem clear_issues_color_then_flags self w r g b a s :
  store s !! self = Some w ->
  color w = VTuple [r; g; b; a] ->
  exists s',
    clear self s = (Ok VNone, s') /\
    gl s' = (gl s ++ [glClearColor [r; g; b; a]; glClear (_clearflags w)])%list /\
    store s' = store s /\
    log s' = log s /\
    argv s' = argv s.
Proof.
  intros Hl Hc.
  unfold clear, bind, deref, lift, gl_glClearColor, gl_glClear.
  rewrite Hl, Hc. cbn. rewrite Hl.
  eexists. split; [reflexivity|]. cbn.
  rewrite <- app_assoc. repeat split.
Qed.

(** ** Timers *)

(** The window after one registration. *)
Lemma registered_stack entry date w :
  _timer_stack (timer_date_append date (timer_stack_append entry w)) =
    (_timer_stack w ++ [entry])%list.
Proof. reflexivity. Qed.

Lemma registered_date entry date w :
  _timer_date (timer_date_append date (timer_stack_append entry w)) =
    (_timer_date w ++ [date])%list.
Proof. reflexivity. Qed.

Lemma decorator_live self delay func w s :
  store s !! self = Some w ->
  decorator self delay func s =
    (Ok func,
     set_store
       (<[self := timer_date_append (VInt 0) (timer_stack_append (func, delay) w)]>
          (store s)) s).
Proof.
  intros Hl. unfold decorator, modify, bind, deref, ret.
  rewrite Hl. cbn. rewrite lookup_insert_eq. cbn.
  unfold set_store. cbn. rewrite insert_insert_eq. reflexivity.
Qed.

Lemma decorator_dead self delay func s :
  store s !! self = None ->
  decorator self delay func s = (Raise NoSuchObject, s).
Proof.
  intros Hl. unfold decorator, modify, bind, deref.
  rewrite Hl. reflexivity.
Qed.

(** C1.  Registering [func] with [@window.timer(delay)], for any delay
    (a non-negative number in particular), appends the one entry
    [(func, delay)] to [_timer_stack] and the one entry [0] to
    [_timer_date] of that window, changes nothing else, and evaluates to
    [func] itself. *)
Theorem timer_registers_one_entry self delay func w s :
  store s !! self = Some w ->
  exists w',
    decorate self delay func s =
      (Ok func, set_store (<[self := w']> (store s)) s) /\
    _timer_stack w' = (_timer_stack w ++ [(func, delay)])%list /\
    _timer_date w' = (_timer_date w ++ [VInt 0])%list /\
    w' = timer_date_append (VInt 0) (timer_stack_append (func, delay) w).
Proof.
  intros Hl.
  exists (timer_date_append (VInt 0) (timer_stack_append (func, delay) w)).
  split; [|repeat split].
  unfold decorate, timer, bind, ret, apply.
  apply decorator_live, Hl.
Qed.

(** One call, seen from one window: only the application of one of its
    own decorators changes it, and that appends one entry to each
    registry. *)
Lemma exec_registry l w c s :
  store s !! l = Some w ->
  exists w',
    store (snd (exec c s)) !! l = Some w' /\
    _timer_stack w' = (_timer_stack w ++ registrations l [c])%list /\
    _timer_date w' =
      (_timer_date w ++ replicate (length (registrations l [c])) (VInt 0))%list.
Proof.
  intros Hl.
  assert (store (snd (exec c s)) = store s ->
          registrations l [c] = [] ->
          exists w',
            store (snd (exec c s)) !! l = Some w' /\
            _timer_stack w' = (_timer_stack w ++ registrations l [c])%list /\
            _timer_date w' =
              (_timer_date w ++
                 replicate (length (registrations l [c])) (VInt 0))%list) as Same.
  { intros -> ->. exists w. cbn. rewrite !app_nil_r. auto. }
  destruct c as [self op|self|self|self|self|self delay|callee arg]; cbn [exec].
  - apply Same; [cbn [exec]|reflexivity].
    destruct (call_stub_cannot self op) as (rest & -> & _). apply cannot_store.
  - apply Same; [cbn [exec]|reflexivity]. apply clear_store.
  - apply Same; [cbn [exec]|reflexivity].
    unfold width, bind, deref. destruct (store s !! self); reflexivity.
  - apply Same; [cbn [exec]|reflexivity].
    unfold height, bind, deref. destruct (store s !! self); reflexivity.
  - apply Same; [cbn [exec]|reflexivity].
    unfold config, bind, deref. destruct (store s !! self) as [w0|]; [|reflexivity].
    cbn. destruct (viewport w0 !! "_config"); reflexivity.
  - apply Same; reflexivity.
  - destruct callee as [| | | | | | | | |self delay];
      try (apply Same; reflexivity).
    cbn [apply registrations].
    destruct (Nat.eqb_spec self l) as [->|Hne].
    + rewrite (decorator_live _ _ _ _ _ Hl). cbn.
      rewrite lookup_insert_eq. eexists. repeat split.
    + destruct (store s !! self) as [w0|] eqn:Hs.
      * rewrite (decorator_live _ _ _ _ _ Hs). cbn.
        rewrite lookup_insert_ne by exact Hne.
        exists w. rewrite !app_nil_r. auto.
      * rewrite (decorator_dead _ _ _ _ Hs). cbn.
        exists w. rewrite !app_nil_r. auto.
Qed.

Lemma registrations_cons l c cs :
  registrations l (c :: cs) = (registrations l [c] ++ registrations l cs)%list.
Proof.
  destruct c as [| | | | | |callee arg]; try reflexivity.
  destruct callee; try reflexivity.
  cbn. destruct (self =? l)%nat; reflexivity.
Qed.

(** Any sequence of calls, seen from one window. *)
Lemma run_registry l cs : forall w s,
  store s !! l = Some w ->
  exists w',
    store (run cs s) !! l = Some w' /\
    _timer_stack w' = (_timer_stack w ++ registrations l cs)%list /\
    _timer_date w' =
      (_timer_date w ++ replicate (length (registrations l cs)) (VInt 0))%list.
Proof.
  induction cs as [|c cs IH]; intros w s Hl.
  - exists w. cbn. rewrite !app_nil_r. auto.
  - destruct (exec_registry l w c s Hl) as (w1 & H1 & Hs1 & Hd1).
    destruct (IH w1 _ H1) as (w2 & H2 & Hs2 & Hd2).
    exists w2. cbn [run]. split; [exact H2|].
    rewrite registrations_cons, Hs2, Hd2, Hs1, Hd1.
    rewrite length_app, replicate_add, !app_assoc. auto.
Qed.

(** C2.  Whatever calls are made after a window is constructed (stub
    operations, [clear], properties, [timer] and applications of
    decorators, on this window or on others, returning or raising), the
    two registries of the window have the same length, and
    [_timer_stack] lists the registrations made on the window in the
    order in which they were made. *)
Theorem registries_follow_registration_order Viewport_init mouse_NONE a s l s1 cs :
  Window_new Viewport_init mouse_NONE a s = (Ok l, s1) ->
  exists w,
    store (run cs s1) !! l = Some w /\
    _timer_stack w = registrations l cs /\
    _timer_date w = replicate (length (registrations l cs)) (VInt 0) /\
    length (_timer_stack w) = length (_timer_date w).
Proof.
  intros Hn.
  destruct (Window_new_Ok _ _ _ _ _ _ Hn) as (w0 & Hi & _ & _ & Hl).
  destruct (Window_init_Ok _ _ _ _ _ _ Hi) as (_ & vp & t & d & st & _ & _ & _ & _ & Hw).
  destruct (run_registry l cs _ _ Hl) as (w & Hr & Hs & Hd).
  rewrite Hw in Hs, Hd. cbn in Hs, Hd.
  exists w. split; [exact Hr|]. split; [exact Hs|]. split; [exact Hd|].
  rewrite Hs, Hd, length_replicate. reflexivity.
Qed.

Lemma registrations_same_decorator l delay fs :
  registrations l (map (Call_apply (VDecorator l delay)) fs) =
    map (fun f => (f, delay)) fs.
Proof.
  induction fs as [|f fs IH]; [reflexivity|].
  cbn. rewrite Nat.eqb_refl, IH. reflexivity.
Qed.

(** C10.  [timer(delay)] alone returns a decorator and leaves the
    world, hence both registries, as they were.  Applying that one
    decorator to the functions [fs], one after the other, returns each
    function and appends one entry per function to each registry of the
    window: [(f, delay)] with the same delay for each, and [0]. *)
Theorem timer_registers_on_application self delay w s fs :
  store s !! self = Some w ->
  exists d,
    timer self delay s = (Ok d, s) /\
    (forall f s0, is_Some (store s0 !! self) -> fst (apply d f s0) = Ok f) /\
    exists w',
      store (run (map (Call_apply d) fs) s) !! self = Some w' /\
      _timer_stack w' = (_timer_stack w ++ map (fun f => (f, delay)) fs)%list /\
      _timer_date w' = (_timer_date w ++ replicate (length fs) (VInt 0))%list.
Proof.
  intros Hl. exists (VDecorator self delay).
  split; [reflexivity|]. split.
  - intros f s0 [w0 H0]. cbn. rewrite (decorator_live _ _ _ _ _ H0). reflexivity.
  - destruct (run_registry self (map (Call_apply (VDecorator self delay)) fs) _ _ Hl)
      as (w' & Hr & Hs & Hd).
    rewrite registrations_same_decorator in Hs, Hd.
    rewrite length_map in Hd. exists w'. auto.
Qed.

(** ** The model at work *)

(** The spec's three cases of the clear flags. *)
Example flags_none :
  fst (Window_init Viewport_init_spec mouse_NONE_spec
         (with_config (Configuration 1 (VInt 0) (VInt 0)) default_args)
         script_world)
  = Ok (let w := demo_window "demo.py" in
        {| _mouse_x := _mouse_x w; _mouse_y := _mouse_y w; _button := _button w;
           _x := _x w; _y := _y w; _width := _width w; _height := _height w;
           _title := _title w; _visible := _visible w;
           _fullscreen := _fullscreen w; _decoration := _decoration w;
           _clock := _clock w; _timer_stack := []; _timer_date := [];
           _backend := None; color := color w;
           _clearflags := GL_COLOR_BUFFER_BIT; viewport := viewport w |}).
Proof. vm_compute. reflexivity. Qed.

Example flags_depth_only :
  match fst (Window_init Viewport_init_spec mouse_NONE_spec
               (with_config (Configuration 1 (VInt 24) (VInt 0)) default_args)
               script_world) with
  | Ok w => _clearflags w = Z.lor GL_COLOR_BUFFER_BIT GL_DEPTH_BUFFER_BIT
  | Raise _ => False
  end.
Proof. vm_compute. reflexivity. Qed.

Example flags_depth_and_stencil :
  match fst (Window_init Viewport_init_spec mouse_NONE_spec demo_args script_world) with
  | Ok w =>
      _clearflags w =
        Z.lor (Z.lor GL_COLOR_BUFFER_BIT GL_DEPTH_BUFFER_BIT) GL_STENCIL_BUFFER_BIT
  | Raise _ => False
  end.
Proof. vm_compute. reflexivity. Qed.

Lemma clear_flags_at_construction_witness :
  Window_new Viewport_init_spec mouse_NONE_spec demo_args script_world =
    (Ok 0%nat, demo_world) /\
  exists w depth stencil,
    store demo_world !! 0%nat = Some w /\
    getattr (arg_config demo_args) "_depth_size" = Ok depth /\
    getattr (arg_config demo_args) "_stencil_size" = Ok stencil /\
    _clearflags w =
      Z.lor
        (Z.lor GL_COLOR_BUFFER_BIT
           (if truthy depth then GL_DEPTH_BUFFER_BIT else 0))
        (if truthy stencil then GL_STENCIL_BUFFER_BIT else 0) /\
    Z.land (_clearflags w) GL_COLOR_BUFFER_BIT = GL_COLOR_BUFFER_BIT /\
    (Z.land (_clearflags w) GL_DEPTH_BUFFER_BIT = GL_DEPTH_BUFFER_BIT
       <-> truthy depth = true) /\
    (Z.land (_clearflags w) GL_STENCIL_BUFFER_BIT = GL_STENCIL_BUFFER_BIT
       <-> truthy stencil = true) /\
    (truthy depth = false -> truthy stencil = false ->
       _clearflags w = GL_COLOR_BUFFER_BIT).
Proof.
  split; [vm_compute; reflexivity|].
  apply (clear_flags_at_construction Viewport_init_spec mouse_NONE_spec
           demo_args script_world 0%nat demo_world).
  vm_compute; reflexivity.
Defined.

Lemma construction_needs_config_witness :
  (arg_config default_args = VNone \/
   (exists oid fields,
      arg_config default_args = VObj oid fields /\
      (assoc "_depth_size" fields = None \/
       assoc "_stencil_size" fields = None))) /\
  exists e,
    Window_new Viewport_init_spec mouse_NONE_spec default_args script_world =
      (Raise e, script_world) /\
    (forall vp title,
       Viewport_init_spec
         (VTuple [arg_width default_args; arg_height default_args])
         (arg_aspect default_args) = Ok vp ->
       py_or (arg_title default_args) sys_argv_0 script_world =
         (Ok title, script_world) ->
       e = AttributeError).
Proof.
  split; [left; reflexivity|].
  apply (construction_needs_config Viewport_init_spec mouse_NONE_spec
           default_args script_world).
  left; reflexivity.
Defined.

(** The same with a configuration object that lacks the stencil size. *)
Example construction_without_stencil_size :
  Window_new Viewport_init_spec mouse_NONE_spec
    (with_config (VObj 1 [("_depth_size", VInt 24)]) default_args) script_world =
    (Raise AttributeError, script_world).
Proof. vm_compute. reflexivity. Qed.

Lemma default_title_witness :
  arg_title demo_args = VNone /\
  Window_new Viewport_init_spec mouse_NONE_spec demo_args script_world =
    (Ok 0%nat, demo_world) /\
  exists w prog,
    store demo_world !! 0%nat = Some w /\
    head (argv script_world) = Some prog /\
    _title w = VStr prog /\
    (_title w = VStr "" <-> prog = "").
Proof.
  split; [reflexivity|]. split; [vm_compute; reflexivity|].
  apply (default_title Viewport_init_spec mouse_NONE_spec
           demo_args script_world 0%nat demo_world).
  - reflexivity.
  - vm_compute; reflexivity.
Defined.

(** C7 as stated fails: in the interactive interpreter [sys.argv] is
    [['']], and a window constructed there with [title=None] stores the
    empty string as its title. *)
Lemma title_empty_in_interactive_session :
  arg_title demo_args = VNone /\
  exists s' w,
    Window_new Viewport_init_spec mouse_NONE_spec demo_args interactive_world =
      (Ok 0%nat, s') /\
    store s' !! 0%nat = Some w /\
    head (argv interactive_world) = Some "" /\
    _title w = VStr "".
Proof.
  split; [reflexivity|].
  exists (set_store (<[0%nat := demo_window ""]> ∅) interactive_world),
         (demo_window "").
  repeat split; vm_compute; reflexivity.
Qed.

(** C4 fails on the code.  A window constructed with a configuration
    does not give it back: [__init__] reads the two sizes of [config]
    and never assigns [self._config], so reading the [config] property
    of the new window raises [AttributeError] where the claim has it
    return the configuration passed to the constructor. *)
Theorem config_is_never_stored :
  arg_config demo_args = demo_config /\
  Window_new Viewport_init_spec mouse_NONE_spec demo_args script_world =
    (Ok 0%nat, demo_world) /\
  config 0%nat demo_world = (Raise AttributeError, demo_world).
Proof. repeat split; vm_compute; reflexivity. Qed.

(** Two different configurations with the same sizes give the same
    window: nothing of the window remembers which one it was built
    from. *)
Example config_leaves_no_trace :
  demo_config <> Configuration 2 (VInt 24) (VInt 8) /\
  Window_new Viewport_init_spec mouse_NONE_spec
    (with_config (Configuration 2 (VInt 24) (VInt 8)) default_args) script_world =
  Window_new Viewport_init_spec mouse_NONE_spec demo_args script_world.
Proof. split; [discriminate|vm_compute; reflexivity]. Qed.

Lemma stub_warns_and_changes_nothing_witness :
  store glfw_world !! 0%nat = Some (set_backend (Some glfw) (demo_window "demo.py")) /\
  _backend (set_backend (Some glfw) (demo_window "demo.py")) = Some glfw /\
  exists s',
    call_stub 0%nat (Op_set_size (VInt 640) (VInt 480)) glfw_world = (Ok VNone, s') /\
    store s' = store glfw_world /\
    gl s' = gl glfw_world /\
    argv s' = argv glfw_world /\
    log s' =
      (log glfw_world ++
         [Warning (name glfw +:+ complaint (Op_set_size (VInt 640) (VInt 480)))])%list.
Proof.
  split; [vm_compute; reflexivity|]. split; [reflexivity|].
  apply (stub_warns_and_changes_nothing 0%nat (Op_set_size (VInt 640) (VInt 480))
           (set_backend (Some glfw) (demo_window "demo.py")) glfw glfw_world).
  - vm_compute; reflexivity.
  - reflexivity.
Defined.

Example show_on_glfw :
  log (snd (show 0%nat glfw_world)) = [Warning "GLFW backend cannot show window"].
Proof. vm_compute. reflexivity. Qed.

Lemma stub_before_backend_witness :
  Window_new Viewport_init_spec mouse_NONE_spec demo_args script_world =
    (Ok 0%nat, demo_world) /\
  call_stub 0%nat Op_swap demo_world = (Raise AttributeError, demo_world).
Proof.
  split; [vm_compute; reflexivity|].
  apply (stub_before_backend Viewport_init_spec mouse_NONE_spec
           demo_args script_world 0%nat demo_world Op_swap).
  vm_compute; reflexivity.
Defined.

Lemma clear_issues_color_then_flags_witness :
  store demo_world !! 0%nat = Some (demo_window "demo.py") /\
  color (demo_window "demo.py") = VTuple [VInt 0; VInt 0; VInt 0; VInt 1] /\
  exists s',
    clear 0%nat demo_world = (Ok VNone, s') /\
    gl s' =
      (gl demo_world ++
         [glClearColor [VInt 0; VInt 0; VInt 0; VInt 1];
          glClear (_clearflags (demo_window "demo.py"))])%list /\
    store s' = store demo_world /\
    log s' = log demo_world /\
    argv s' = argv demo_world.
Proof.
  split; [vm_compute; reflexivity|]. split; [reflexivity|].
  apply (clear_issues_color_then_flags 0%nat (demo_window "demo.py")
           (VInt 0) (VInt 0) (VInt 0) (VInt 1) demo_world).
  - vm_compute; reflexivity.
  - reflexivity.
Defined.

(** A colour of three components: the binding refuses the call, and no
    buffer is cleared. *)
Example clear_with_three_components :
  let w := demo_window "demo.py" in
  let w3 :=
    {| _mouse_x := _mouse_x w; _mouse_y := _mouse_y w; _button := _button w;
       _x := _x w; _y := _y w; _width := _width w; _height := _height w;
       _title := _title w; _visible := _visible w;
       _fullscreen := _fullscreen w; _decoration := _decoration w;
       _clock := _clock w; _timer_stack := []; _timer_date := [];
       _backend := None; color := VTuple [VInt 1; VInt 1; VInt 1];
       _clearflags := _clearflags w; viewport := viewport w |} in
  let s := set_store (<[0%nat := w3]> ∅) script_world in
  clear 0%nat s = (Raise TypeError, s).
Proof. vm_compute. reflexivity. Qed.

Lemma timer_registers_one_entry_witness :
  store demo_world !! 0%nat = Some (demo_window "demo.py") /\
  exists w',
    decorate 0%nat (VFloat 0.5) (VFunc 7) demo_world =
      (Ok (VFunc 7), set_store (<[0%nat := w']> (store demo_world)) demo_world) /\
    _timer_stack w' =
      (_timer_stack (demo_window "demo.py") ++ [(VFunc 7, VFloat 0.5)])%list /\
    _timer_date w' = (_timer_date (demo_window "demo.py") ++ [VInt 0])%list /\
    w' = timer_date_append (VInt 0)
           (timer_stack_append (VFunc 7, VFloat 0.5) (demo_window "demo.py")).
Proof.
  split; [vm_compute; reflexivity|].
  apply (timer_registers_one_entry 0%nat (VFloat 0.5) (VFunc 7)
           (demo_window "demo.py") demo_world).
  vm_compute; reflexivity.
Defined.

Example demo_calls_registry :
  _timer_stack <$> (store (run demo_calls demo_world) !! 0%nat) =
    Some [(VFunc 20, VInt 2); (VFunc 10, VInt 1)].
Proof. vm_compute. reflexivity. Qed.

Lemma registries_follow_registration_order_witness :
  Window_new Viewport_init_spec mouse_NONE_spec demo_args script_world =
    (Ok 0%nat, demo_world) /\
  exists w,
    store (run demo_calls demo_world) !! 0%nat = Some w /\
    _timer_stack w = registrations 0%nat demo_calls /\
    _timer_date w = replicate (length (registrations 0%nat demo_calls)) (VInt 0) /\
    length (_timer_stack w) = length (_timer_date w).
Proof.
  split; [vm_compute; reflexivity|].
  apply (registries_follow_registration_order Viewport_init_spec mouse_NONE_spec
           demo_args script_world 0%nat demo_world demo_calls).
  vm_compute; reflexivity.
Defined.

Lemma timer_registers_on_application_witness :
  store demo_world !! 0%nat = Some (demo_window "demo.py") /\
  exists d,
    timer 0%nat (VFloat 0.5) demo_world = (Ok d, demo_world) /\
    (forall f s0, is_Some (store s0 !! 0%nat) -> fst (apply d f s0) = Ok f) /\
    exists w',
      store (run (map (Call_apply d) [VFunc 1; VFunc 2; VFunc 3]) demo_world) !! 0%nat
        = Some w' /\
      _timer_stack w' =
        (_timer_stack (demo_window "demo.py") ++
           map (fun f => (f, VFloat 0.5)) [VFunc 1; VFunc 2; VFunc 3])%list /\
      _timer_date w' =
        (_timer_date (demo_window "demo.py") ++
           replicate (length [VFunc 1; VFunc 2; VFunc 3]) (VInt 0))%list.
Proof.
  split; [vm_compute; reflexivity|].
  apply (timer_registers_on_application 0%nat (VFloat 0.5)
           (demo_window "demo.py") demo_world [VFunc 1; VFunc 2; VFunc 3]).
  vm_compute; reflexivity.
Defined.

(** * Further properties *)

(** ** Construction *)

(** X1.  The title kept by a new window is the [title] argument when
    that is truthy; for every falsy title (None, the empty string, 0)
    it is [sys.argv[0]]. *)
Theorem title_is_argument_or_program_name Viewport_init mouse_NONE a s l s' :
  Window_new Viewport_init mouse_NONE a s = (Ok l, s') ->
  exists w,
    store s' !! l = Some w /\
    if truthy (arg_title a)
    then _title w = arg_title a
    else exists prog rest, argv s = prog :: rest /\ _title w = VStr prog.
Proof.
  intros Hn.
  destruct (Window_new_Ok _ _ _ _ _ _ Hn) as (w & Hi & _ & _ & Hl).
  destruct (Window_init_Ok _ _ _ _ _ _ Hi)
    as (_ & vp & title & depth & stencil & _ & Hor & _ & _ & Hw).
  exists w. split; [exact Hl|].
  unfold py_or, ret, sys_argv_0 in Hor. rewrite Hw. cbn [_title].
  destruct (truthy (arg_title a)).
  - congruence.
  - destruct (argv s) as [|prog rest]; [discriminate|].
    exists prog, rest. split; congruence.
Qed.

(** X2.  When construction succeeds: exactly when the base initialiser
    returns, the title is truthy or [sys.argv] is not empty, and the
    configuration carries both sizes. *)
Theorem construction_succeeds_iff Viewport_init mouse_NONE a s :
  (exists l s', Window_new Viewport_init mouse_NONE a s = (Ok l, s')) <->
  (exists vp,
     Viewport_init (VTuple [arg_width a; arg_height a]) (arg_aspect a) = Ok vp) /\
  (truthy (arg_title a) = true \/ argv s <> []) /\
  (exists depth, getattr (arg_config a) "_depth_size" = Ok depth) /\
  (exists stencil, getattr (arg_config a) "_stencil_size" = Ok stencil).
Proof.
  split.
  - intros (l & s' & Hn).
    destruct (Window_new_Ok _ _ _ _ _ _ Hn) as (w & Hi & _).
    destruct (Window_init_Ok _ _ _ _ _ _ Hi)
      as (_ & vp & title & depth & stencil & Hv & Hor & Hd & Hs & _).
    repeat split; eauto.
    unfold py_or, sys_argv_0 in Hor.
    destruct (truthy (arg_title a)); [left; reflexivity|right].
    destruct (argv s); [discriminate|congruence].
  - intros ((vp & Hv) & Ht & (depth & Hd) & (stencil & Hs)).
    unfold Window_new, Window_init, bind, lift, ret, py_or, sys_argv_0.
    rewrite Hv.
    destruct (truthy (arg_title a)) eqn:Htt.
    + rewrite Hd, Hs. eauto.
    + destruct Ht as [Ht|Ht]; [discriminate|].
      destruct (argv s) as [|prog rest]; [congruence|].
      rewrite Hd, Hs. eauto.
Qed.

(** X3.  With a falsy title and an empty [sys.argv], construction raises
    the [IndexError] of [sys.argv[0]], whatever the configuration: the
    title is settled before the configuration is read. *)
Theorem construction_without_program_name Viewport_init mouse_NONE a s vp :
  Viewport_init (VTuple [arg_width a; arg_height a]) (arg_aspect a) = Ok vp ->
  truthy (arg_title a) = false ->
  argv s = [] ->
  Window_new Viewport_init mouse_NONE a s = (Raise IndexError, s).
Proof.
  intros Hv Ht Ha.
  unfold Window_new, Window_init, bind, lift, py_or, sys_argv_0.
  rewrite Hv, Ht, Ha. reflexivity.
Qed.

(** ** What no operation changes *)

Lemma same_but_registries_refl w : same_but_registries w w.
Proof. repeat split. Qed.

Lemma same_but_registries_trans w1 w2 w3 :
  same_but_registries w1 w2 -> same_but_registries w2 w3 ->
  same_but_registries w1 w3.
Proof. unfold same_but_registries. intuition congruence. Qed.

Lemma exec_window l w c s :
  store s !! l = Some w ->
  exists w',
    store (snd (exec c s)) !! l = Some w' /\ same_but_registries w w'.
Proof.
  intros Hl.
  assert (store (snd (exec c s)) = store s ->
          exists w',
            store (snd (exec c s)) !! l = Some w' /\
            same_but_registries w w') as Same.
  { intros ->. exists w. split; [exact Hl|apply same_but_registries_refl]. }
  destruct c as [self op|self|self|self|self|self delay|callee arg].
  - apply Same. cbn [exec].
    destruct (call_stub_cannot self op) as (rest & -> & _). apply cannot_store.
  - apply Same, clear_store.
  - apply Same. cbn [exec].
    unfold width, bind, deref. destruct (store s !! self); reflexivity.
  - apply Same. cbn [exec].
    unfold height, bind, deref. destruct (store s !! self); reflexivity.
  - apply Same. cbn [exec].
    unfold config, bind, deref. destruct (store s !! self) as [w0|]; [|reflexivity].
    cbn. destruct (viewport w0 !! "_config"); reflexivity.
  - apply Same. reflexivity.
  - destruct callee as [| | | | | | | | |self delay];
      try (apply Same; reflexivity).
    cbn [exec apply].
    destruct (Nat.eqb_spec self l) as [->|Hne].
    + rewrite (decorator_live _ _ _ _ _ Hl). cbn.
      rewrite lookup_insert_eq. eexists. split; [reflexivity|].
      repeat split.
    + destruct (store s !! self) as [w0|] eqn:Hs.
      * rewrite (decorator_live _ _ _ _ _ Hs). cbn.
        rewrite lookup_insert_ne by exact Hne.
        exists w. split; [exact Hl|apply same_but_registries_refl].
      * rewrite (decorator_dead _ _ _ _ Hs). cbn.
        exists w. split; [exact Hl|apply same_but_registries_refl].
Qed.

(** X4.  No call of this class, returning or raising, changes an
    attribute of a window other than its two timer registries: size,
    position, title, visibility, fullscreen and decoration flags,
    colour, clear flags, clock and backend stay as they were (so
    [set_size], [set_title], [set_position] and [set_fullscreen] set
    nothing). *)
Theorem calls_change_only_registries l w cs : forall s,
  store s !! l = Some w ->
  exists w',
    store (run cs s) !! l = Some w' /\ same_but_registries w w'.
Proof.
  revert w. induction cs as [|c cs IH]; intros w s Hl.
  - exists w. split; [exact Hl|apply same_but_registries_refl].
  - destruct (exec_window l w c s Hl) as (w1 & H1 & S1).
    destruct (IH w1 _ H1) as (w2 & H2 & S2).
    exists w2. split; [exact H2|].
    eapply same_but_registries_trans; eauto.
Qed.

Lemma new_window_after_calls Viewport_init mouse_NONE a s l s1 cs :
  Window_new Viewport_init mouse_NONE a s = (Ok l, s1) ->
  exists w0 w,
    store s1 !! l = Some w0 /\
    store (run cs s1) !! l = Some w /\
    same_but_registries w0 w /\
    _width w0 = arg_width a /\ _height w0 = arg_height a /\
    _clock w0 = VNone /\ _backend w0 = None /\
    color w0 = arg_color a /\
    exists depth stencil,
      getattr (arg_config a) "_depth_size" = Ok depth /\
      getattr (arg_config a) "_stencil_size" = Ok stencil /\
      _clearflags w0 =
        Z.lor
          (Z.lor GL_COLOR_BUFFER_BIT
             (if truthy depth then GL_DEPTH_BUFFER_BIT else 0))
          (if truthy stencil then GL_STENCIL_BUFFER_BIT else 0).
Proof.
  intros Hn.
  destruct (Window_new_Ok _ _ _ _ _ _ Hn) as (w0 & Hi & _ & _ & Hl).
  destruct (Window_init_Ok _ _ _ _ _ _ Hi)
    as (_ & vp & title & depth & stencil & _ & _ & Hd & Hs & Hw).
  destruct (calls_change_only_registries l w0 cs _ Hl) as (w & Hr & Hsame).
  exists w0, w.
  split; [exact Hl|]. split; [exact Hr|]. split; [exact Hsame|].
  rewrite Hw. cbn.
  do 5 (split; [reflexivity|]).
  exists depth, stencil. auto.
Qed.

(** X5.  [width] and [height] report the size given to the constructor,
    after any calls on the window, [set_size] among them. *)
Theorem size_is_as_constructed Viewport_init mouse_NONE a s l s1 cs :
  Window_new Viewport_init mouse_NONE a s = (Ok l, s1) ->
  width l (run cs s1) = (Ok (arg_width a), run cs s1) /\
  height l (run cs s1) = (Ok (arg_height a), run cs s1).
Proof.
  intros Hn.
  destruct (new_window_after_calls _ _ _ _ _ _ cs Hn)
    as (w0 & w & _ & Hr & Hsame & Hw & Hh & _).
  unfold same_but_registries in Hsame.
  unfold width, height, bind, deref, ret. rewrite Hr.
  split; f_equal; f_equal; intuition congruence.
Qed.

(** X6.  Nothing in this class attaches a clock: on a window made by the
    constructor, [fps] raises [AttributeError], after any calls, and
    the clock's method is not reached. *)
Theorem fps_without_clock Viewport_init mouse_NONE get_fps a s l s1 cs :
  Window_new Viewport_init mouse_NONE a s = (Ok l, s1) ->
  fps get_fps l (run cs s1) = (Raise AttributeError, run cs s1).
Proof.
  intros Hn.
  destruct (new_window_after_calls _ _ _ _ _ _ cs Hn)
    as (w0 & w & _ & Hr & Hsame & _ & _ & Hc & _).
  unfold same_but_registries in Hsame.
  assert (_clock w = VNone) as Hcw by intuition congruence.
  unfold fps, bind, deref. rewrite Hr, Hcw. reflexivity.
Qed.

(** X7.  Nothing in this class attaches a backend either: on a window
    made by the constructor, every operation left to the backend keeps
    raising [AttributeError], after any calls, and logs nothing. *)
Theorem stubs_keep_raising Viewport_init mouse_NONE a s l s1 cs op :
  Window_new Viewport_init mouse_NONE a s = (Ok l, s1) ->
  call_stub l op (run cs s1) = (Raise AttributeError, run cs s1).
Proof.
  intros Hn.
  destruct (new_window_after_calls _ _ _ _ _ _ cs Hn)
    as (w0 & w & _ & Hr & Hsame & _ & _ & _ & Hb & _).
  unfold same_but_registries in Hsame.
  assert (_backend w = None) as Hbw by intuition congruence.
  destruct (call_stub_cannot l op) as (rest & -> & _).
  apply (cannot_None _ _ _ _ Hr Hbw).
Qed.

(** ** Clearing *)

(** X8.  [clear()] issues both of its GL calls or none.  It raises, and
    leaves the world as it was, unless the colour unpacks to exactly
    four arguments; then it issues [glClearColor] with them and
    [glClear] with the clear flags, in this order.  [glClear] is never
    issued alone. *)
Theorem clear_all_or_nothing self s :
  (exists e, clear self s = (Raise e, s)) \/
  (exists w args,
     store s !! self = Some w /\
     unpack (color w) = Ok args /\
     length args = 4%nat /\
     clear self s =
       (Ok VNone,
        set_gl (gl s ++ [glClearColor args; glClear (_clearflags w)])%list s)).
Proof.
  unfold clear, bind, deref, lift, gl_glClearColor, gl_glClear, raise.
  destruct (store s !! self) as [w|] eqn:Hl; [|left; eauto].
  destruct (unpack (color w)) as [args|e] eqn:Hu; [|left; eauto].
  destruct (Nat.eqb_spec (length args) 4) as [Hlen|Hlen]; [|left; eauto].
  right. exists w, args. cbn. rewrite Hl.
  repeat split; try assumption.
  unfold set_gl. cbn. rewrite <- app_assoc. reflexivity.
Qed.

(** X9.  The clear flags are those of construction for good: after any
    calls on a window constructed with a colour of four components,
    [clear()] issues [glClearColor] with that colour and [glClear] with
    the mask computed by the constructor from the two sizes of the
    configuration. *)
Theorem clear_after_calls Viewport_init mouse_NONE a s l s1 cs r g b al :
  Window_new Viewport_init mouse_NONE a s = (Ok l, s1) ->
  arg_color a = VTuple [r; g; b; al] ->
  exists depth stencil,
    getattr (arg_config a) "_depth_size" = Ok depth /\
    getattr (arg_config a) "_stencil_size" = Ok stencil /\
    clear l (run cs s1) =
      (Ok VNone,
       set_gl
         (gl (run cs s1) ++
            [glClearColor [r; g; b; al];
             glClear
               (Z.lor
                  (Z.lor GL_COLOR_BUFFER_BIT
                     (if truthy depth then GL_DEPTH_BUFFER_BIT else 0))
                  (if truthy stencil then GL_STENCIL_BUFFER_BIT else 0))])%list
         (run cs s1)).
Proof.
  intros Hn Hcol.
  destruct (new_window_after_calls _ _ _ _ _ _ cs Hn)
    as (w0 & w & _ & Hr & Hsame & _ & _ & _ & _ & Hc & depth & stencil & Hd & Hs & Hf).
  unfold same_but_registries in Hsame.
  assert (color w = VTuple [r; g; b; al]) as Hcw by intuition congruence.
  assert (_clearflags w = _clearflags w0) as Hfw by intuition congruence.
  exists depth, stencil. split; [exact Hd|]. split; [exact Hs|].
  unfold clear, bind, deref, lift, gl_glClearColor, gl_glClear.
  rewrite Hr, Hcw. cbn. rewrite Hr, Hfw, Hf.
  unfold set_gl. cbn. rewrite <- app_assoc. reflexivity.
Qed.

(** ** Timers *)

(** X10.  Each window has registries of its own.  Of two windows
    constructed one after the other, each lists, after any calls, the
    registrations made on it and none made on the other. *)
Theorem windows_have_separate_registries
    Viewport_init mouse_NONE a1 a2 s l1 s1 l2 s2 cs :
  Window_new Viewport_init mouse_NONE a1 s = (Ok l1, s1) ->
  Window_new Viewport_init mouse_NONE a2 s1 = (Ok l2, s2) ->
  l1 <> l2 /\
  exists w1 w2,
    store (run cs s2) !! l1 = Some w1 /\
    store (run cs s2) !! l2 = Some w2 /\
    _timer_stack w1 = registrations l1 cs /\
    _timer_stack w2 = registrations l2 cs.
Proof.
  intros Hn1 Hn2.
  destruct (Window_new_Ok _ _ _ _ _ _ Hn1) as (v1 & Hi1 & _ & _ & Hl1).
  destruct (Window_new_Ok _ _ _ _ _ _ Hn2) as (v2 & Hi2 & Hfresh & Hs2 & Hl2).
  assert (l1 <> l2) as Hne by (intros ->; congruence).
  split; [exact Hne|].
  assert (store s2 !! l1 = Some v1) as Hl1'.
  { rewrite Hs2. cbn. rewrite lookup_insert_ne by congruence. exact Hl1. }
  destruct (Window_init_Ok _ _ _ _ _ _ Hi1) as (_ & ? & ? & ? & ? & _ & _ & _ & _ & Hw1).
  destruct (Window_init_Ok _ _ _ _ _ _ Hi2) as (_ & ? & ? & ? & ? & _ & _ & _ & _ & Hw2).
  destruct (run_registry l1 cs _ _ Hl1') as (w1 & Hr1 & Hst1 & _).
  destruct (run_registry l2 cs _ _ Hl2) as (w2 & Hr2 & Hst2 & _).
  exists w1, w2. rewrite Hw1 in Hst1. rewrite Hw2 in Hst2. cbn in Hst1, Hst2.
  auto.
Qed.

(** X11.  A registered timer is never removed nor moved: after any
    calls, every entry of [_timer_stack] and of [_timer_date] is still
    found at the index it had. *)
Theorem timers_keep_their_index l w cs s :
  store s !! l = Some w ->
  exists w',
    store (run cs s) !! l = Some w' /\
    (forall i entry,
       _timer_stack w !! i = Some entry -> _timer_stack w' !! i = Some entry) /\
    (forall i date,
       _timer_date w !! i = Some date -> _timer_date w' !! i = Some date).
Proof.
  intros Hl.
  destruct (run_registry l cs _ _ Hl) as (w' & Hr & Hs & Hd).
  exists w'. split; [exact Hr|].
  rewrite Hs, Hd. split; intros i x Hx; apply lookup_app_l_Some; exact Hx.
Qed.

(** ** Operations left to the backend *)

(** X12.  The warning is given at every call: on a window with a
    backend, a sequence of operations left to the backend logs one
    warning per call, in the order of the calls, and changes no
    window. *)
Theorem stubs_warn_every_time self w b ops : forall s,
  store s !! self = Some w ->
  _backend w = Some b ->
  store (run (map (Call_stub self) ops) s) = store s /\
  log (run (map (Call_stub self) ops) s) =
    (log s ++ map (fun op => Warning (name b +:+ complaint op)) ops)%list.
Proof.
  induction ops as [|op ops IH]; intros s Hl Hb.
  - cbn. rewrite app_nil_r. auto.
  - cbn [map run exec].
    destruct (call_stub_cannot self op) as (rest & -> & ->).
    rewrite (cannot_Some _ _ _ _ _ Hl Hb). cbn [snd].
    destruct (IH (set_log (log s ++ [Warning (name b +:+ complaint op)])%list s))
      as (Hst & Hlg); [exact Hl|exact Hb|].
    split; [exact Hst|].
    rewrite Hlg. cbn. rewrite <- app_assoc. reflexivity.
Qed.

(** ** The configuration *)

(** X13.  What the [config] property returns does not depend on the
    configuration given to the constructor: constructing the window
    with any other configuration that carries the two sizes gives the
    same reference, and [config] returns, or raises, the same on it. *)
Theorem config_ignores_the_argument
    Viewport_init mouse_NONE a c depth stencil s l s1 :
  Window_new Viewport_init mouse_NONE a s = (Ok l, s1) ->
  getattr c "_depth_size" = Ok depth ->
  getattr c "_stencil_size" = Ok stencil ->
  exists s2,
    Window_new Viewport_init mouse_NONE (with_config c a) s = (Ok l, s2) /\
    fst (config l s2) = fst (config l s1).
Proof.
  intros Hn Hd Hs.
  unfold Window_new, Window_init, bind, lift, ret in *.
  cbn [arg_width arg_height arg_aspect arg_title arg_config with_config].
  destruct (Viewport_init _ _) as [vp|e]; [|discriminate].
  destruct (py_or (arg_title a) sys_argv_0 s) as [[title|e] s0] eqn:Ht;
    [|discriminate].
  apply py_or_state in Ht as ->.
  destruct (getattr (arg_config a) "_depth_size") as [d0|e]; [|discriminate].
  destruct (getattr (arg_config a) "_stencil_size") as [st0|e]; [|discriminate].
  rewrite Hd, Hs. injection Hn as <- <-.
  eexists. split; [reflexivity|].
  unfold config, bind, deref. cbn. rewrite !lookup_insert_eq. cbn.
  destruct (vp !! "_config"); reflexivity.
Qed.

(** ** The further properties at work *)

Lemma title_is_argument_or_program_name_witness :
  Window_new Viewport_init_spec mouse_NONE_spec titled_args demo_world =
    (Ok 1%nat, two_window_world) /\
  exists w,
    store two_window_world !! 1%nat = Some w /\
    if truthy (arg_title titled_args)
    then _title w = arg_title titled_args
    else exists prog rest, argv demo_world = prog :: rest /\ _title w = VStr prog.
Proof.
  split; [vm_compute; reflexivity|].
  apply (title_is_argument_or_program_name Viewport_init_spec mouse_NONE_spec
           titled_args demo_world 1%nat two_window_world).
  vm_compute; reflexivity.
Defined.

(** An empty title is replaced like a missing one. *)
Example empty_title_is_replaced :
  let a :=
    {| arg_width := VInt 256; arg_height := VInt 256; arg_title := VStr "";
       arg_visible := VBool true; arg_aspect := VNone;
       arg_decoration := VBool true; arg_fullscreen := VBool false;
       arg_config := demo_config; arg_context := VNone;
       arg_color := VTuple [VInt 0; VInt 0; VInt 0; VInt 1] |} in
  Window_new Viewport_init_spec mouse_NONE_spec a script_world =
    (Ok 0%nat, demo_world).
Proof. vm_compute. reflexivity. Qed.

Lemma construction_without_program_name_witness :
  Viewport_init_spec (VTuple [arg_width demo_args; arg_height demo_args])
    (arg_aspect demo_args) = Ok (viewport (demo_window "demo.py")) /\
  truthy (arg_title demo_args) = false /\
  argv embedded_world = [] /\
  Window_new Viewport_init_spec mouse_NONE_spec demo_args embedded_world =
    (Raise IndexError, embedded_world).
Proof.
  split; [vm_compute; reflexivity|]. split; [reflexivity|]. split; [reflexivity|].
  apply (construction_without_program_name Viewport_init_spec mouse_NONE_spec
           demo_args embedded_world (viewport (demo_window "demo.py"))).
  - vm_compute; reflexivity.
  - reflexivity.
  - reflexivity.
Defined.

(** The same without a configuration: the title fails first. *)
Example title_fails_before_config :
  Window_new Viewport_init_spec mouse_NONE_spec default_args embedded_world =
    (Raise IndexError, embedded_world).
Proof. vm_compute. reflexivity. Qed.

(** With a title, an empty [sys.argv] does no harm. *)
Example titled_window_needs_no_program_name :
  fst (Window_new Viewport_init_spec mouse_NONE_spec titled_args embedded_world) =
    Ok 0%nat.
Proof. vm_compute. reflexivity. Qed.

Lemma calls_change_only_registries_witness :
  store demo_world !! 0%nat = Some (demo_window "demo.py") /\
  exists w',
    store (run demo_calls demo_world) !! 0%nat = Some w' /\
    same_but_registries (demo_window "demo.py") w'.
Proof.
  split; [vm_compute; reflexivity|].
  apply (calls_change_only_registries 0%nat (demo_window "demo.py")
           demo_calls demo_world).
  vm_compute; reflexivity.
Defined.

Lemma size_is_as_constructed_witness :
  Window_new Viewport_init_spec mouse_NONE_spec demo_args script_world =
    (Ok 0%nat, demo_world) /\
  width 0%nat (run two_window_calls demo_world) =
    (Ok (arg_width demo_args), run two_window_calls demo_world) /\
  height 0%nat (run two_window_calls demo_world) =
    (Ok (arg_height demo_args), run two_window_calls demo_world).
Proof.
  split; [vm_compute; reflexivity|].
  apply (size_is_as_constructed Viewport_init_spec mouse_NONE_spec
           demo_args script_world 0%nat demo_world two_window_calls).
  vm_compute; reflexivity.
Defined.

Lemma fps_without_clock_witness :
  Window_new Viewport_init_spec mouse_NONE_spec titled_args demo_world =
    (Ok 1%nat, two_window_world) /\
  fps sixty_fps 1%nat (run two_window_calls two_window_world) =
    (Raise AttributeError, run two_window_calls two_window_world).
Proof.
  split; [vm_compute; reflexivity|].
  apply (fps_without_clock Viewport_init_spec mouse_NONE_spec sixty_fps
           titled_args demo_world 1%nat two_window_world two_window_calls).
  vm_compute; reflexivity.
Defined.

Lemma stubs_keep_raising_witness :
  Window_new Viewport_init_spec mouse_NONE_spec titled_args demo_world =
    (Ok 1%nat, two_window_world) /\
  call_stub 1%nat Op_get_size (run two_window_calls two_window_world) =
    (Raise AttributeError, run two_window_calls two_window_world).
Proof.
  split; [vm_compute; reflexivity|].
  apply (stubs_keep_raising Viewport_init_spec mouse_NONE_spec
           titled_args demo_world 1%nat two_window_world two_window_calls
           Op_get_size).
  vm_compute; reflexivity.
Defined.

Lemma clear_after_calls_witness :
  Window_new Viewport_init_spec mouse_NONE_spec titled_args demo_world =
    (Ok 1%nat, two_window_world) /\
  arg_color titled_args = VTuple [VInt 1; VInt 1; VInt 1; VInt 1] /\
  exists depth stencil,
    getattr (arg_config titled_args) "_depth_size" = Ok depth /\
    getattr (arg_config titled_args) "_stencil_size" = Ok stencil /\
    clear 1%nat (run two_window_calls two_window_world) =
      (Ok VNone,
       set_gl
         (gl (run two_window_calls two_window_world) ++
            [glClearColor [VInt 1; VInt 1; VInt 1; VInt 1];
             glClear
               (Z.lor
                  (Z.lor GL_COLOR_BUFFER_BIT
                     (if truthy depth then GL_DEPTH_BUFFER_BIT else 0))
                  (if truthy stencil then GL_STENCIL_BUFFER_BIT else 0))])%list
         (run two_window_calls two_window_world)).
Proof.
  split; [vm_compute; reflexivity|]. split; [reflexivity|].
  apply (clear_after_calls Viewport_init_spec mouse_NONE_spec
           titled_args demo_world 1%nat two_window_world two_window_calls
           (VInt 1) (VInt 1) (VInt 1) (VInt 1)).
  - vm_compute; reflexivity.
  - reflexivity.
Defined.

(** The calls on the two windows clear the second one once, with the
    colour bit alone. *)
Example two_window_calls_gl :
  gl (run two_window_calls two_window_world) =
    [glClearColor [VInt 1; VInt 1; VInt 1; VInt 1]; glClear GL_COLOR_BUFFER_BIT].
Proof. vm_compute. reflexivity. Qed.

Lemma windows_have_separate_registries_witness :
  Window_new Viewport_init_spec mouse_NONE_spec demo_args script_world =
    (Ok 0%nat, demo_world) /\
  Window_new Viewport_init_spec mouse_NONE_spec titled_args demo_world =
    (Ok 1%nat, two_window_world) /\
  0%nat <> 1%nat /\
  exists w1 w2,
    store (run two_window_calls two_window_world) !! 0%nat = Some w1 /\
    store (run two_window_calls two_window_world) !! 1%nat = Some w2 /\
    _timer_stack w1 = registrations 0%nat two_window_calls /\
    _timer_stack w2 = registrations 1%nat two_window_calls.
Proof.
  split; [vm_compute; reflexivity|]. split; [vm_compute; reflexivity|].
  apply (windows_have_separate_registries Viewport_init_spec mouse_NONE_spec
           demo_args titled_args script_world 0%nat demo_world 1%nat
           two_window_world two_window_calls).
  - vm_compute; reflexivity.
  - vm_compute; reflexivity.
Defined.

Example two_window_registries :
  registrations 0%nat two_window_calls = [(VFunc 30, VInt 3)] /\
  registrations 1%nat two_window_calls = [(VFunc 50, VInt 5)].
Proof. split; reflexivity. Qed.

Lemma timers_keep_their_index_witness :
  store ticking_world !! 0%nat = Some ticking_window /\
  exists w',
    store (run demo_calls ticking_world) !! 0%nat = Some w' /\
    (forall i entry,
       _timer_stack ticking_window !! i = Some entry ->
       _timer_stack w' !! i = Some entry) /\
    (forall i date,
       _timer_date ticking_window !! i = Some date ->
       _timer_date w' !! i = Some date).
Proof.
  split; [vm_compute; reflexivity|].
  apply (timers_keep_their_index 0%nat ticking_window demo_calls ticking_world).
  vm_compute; reflexivity.
Defined.

Lemma stubs_warn_every_time_witness :
  store glfw_world !! 0%nat = Some (set_backend (Some glfw) (demo_window "demo.py")) /\
  _backend (set_backend (Some glfw) (demo_window "demo.py")) = Some glfw /\
  store (run (map (Call_stub 0%nat) [Op_show; Op_swap; Op_show]) glfw_world) =
    store glfw_world /\
  log (run (map (Call_stub 0%nat) [Op_show; Op_swap; Op_show]) glfw_world) =
    (log glfw_world ++
       map (fun op => Warning (name glfw +:+ complaint op))
         [Op_show; Op_swap; Op_show])%list.
Proof.
  split; [vm_compute; reflexivity|]. split; [reflexivity|].
  apply (stubs_warn_every_time 0%nat
           (set_backend (Some glfw) (demo_window "demo.py")) glfw
           [Op_show; Op_swap; Op_show] glfw_world).
  - vm_compute; reflexivity.
  - reflexivity.
Defined.

Example three_warnings :
  log (run (map (Call_stub 0%nat) [Op_show; Op_swap; Op_show]) glfw_world) =
    [Warning "GLFW backend cannot show window";
     Warning "GLFW backend cannot swap buffers";
     Warning "GLFW backend cannot show window"].
Proof. vm_compute. reflexivity. Qed.

Lemma config_ignores_the_argument_witness :
  Window_new Viewport_init_spec mouse_NONE_spec demo_args script_world =
    (Ok 0%nat, demo_world) /\
  getattr (Configuration 2 (VInt 0) (VInt 0)) "_depth_size" = Ok (VInt 0) /\
  getattr (Configuration 2 (VInt 0) (VInt 0)) "_stencil_size" = Ok (VInt 0) /\
  exists s2,
    Window_new Viewport_init_spec mouse_NONE_spec
      (with_config (Configuration 2 (VInt 0) (VInt 0)) demo_args) script_world =
      (Ok 0%nat, s2) /\
    fst (config 0%nat s2) = fst (config 0%nat demo_world).
Proof.
  split; [vm_compute; reflexivity|]. split; [reflexivity|]. split; [reflexivity|].
  apply (config_ignores_the_argument Viewport_init_spec mouse_NONE_spec
           demo_args (Configuration 2 (VInt 0) (VInt 0)) (VInt 0) (VInt 0)
           script_world 0%nat demo_world).
  - vm_compute; reflexivity.
  - reflexivity.
  - reflexivity.
Defined.
